(** * Nash MCP: the task registry and its script dispatch

    A shallow embedding of [nash_mcp/nash_tasks/nash_tasks.py] together with
    the two runners it calls, [nash_mcp/execute/execute_command.py] and
    [nash_mcp/execute/execute_python.py].

    Modelling conventions.
    - Python text is a Rocq [string] (a sequence of 8-bit characters).  Case
      mapping and white space classification are those of ASCII; characters
      above 127 are left alone by [lower] and are never white space.
    - The tasks file [MAC_TASKS_PATH] is kept in parsed form: it is absent, or
      it holds text on which [json.load] raises [JSONDecodeError] (recorded
      with the message and traceback of that exception), or it holds
      a JSON object of the documented layout (task name to a task object whose
      optional fields are [prompt] and [scripts]; a script object has the
      optional text fields [name], [type], [code] and [description]).
    - The file system is reliable: [exists], [open], [mkdir] and the write of
      [json.dump] succeed, and what [json.dump] wrote is what [json.load]
      reads back.
    - A child process is an oracle from the command line or source text to
      what [subprocess] reports.  Logging has no effect on results; of what
      is logged, the command text [safe_cmd] of [execute_command] and the
      argument text [args_str] of [execute_task_script] are modelled.
    - The secrets file [MAC_SECRETS_PATH] is kept in parsed form like the
      tasks file: absent, unparsable, or a JSON array of objects with the
      optional text fields [key] and [value]. *)

From Stdlib Require Import List String Ascii ZArith NArith Lia Bool DecimalString.
Import ListNotations.
Open Scope string_scope.

(** ** Python built-ins used by the code *)

Module Py.

(** The line feed character, written [\n] in Python literals. *)
Definition nl : string := String (ascii_of_nat 10) EmptyString.

(** The double quote character as a one-character text. *)
Definition dquote : string := String (ascii_of_nat 34) EmptyString.

(** [str(i)] and [{i}] inside an f-string, for an [int]. *)
Definition str_int (z : Z) : string := NilZero.string_of_int (Z.to_int z).

(** [sep.join(parts)]. *)
Definition join (sep : string) (parts : list string) : string :=
  String.concat sep parts.

(** Truth value of a text: only the empty text is false. *)
Definition truthy (s : string) : bool :=
  match s with EmptyString => false | String _ _ => true end.

Definition lower_char (c : ascii) : ascii :=
  let n := N_of_ascii c in
  if ((65 <=? n) && (n <=? 90))%N then ascii_of_N (n + 32) else c.

(** [s.lower()]. *)
Fixpoint lower (s : string) : string :=
  match s with
  | EmptyString => EmptyString
  | String c s' => String (lower_char c) (lower s')
  end.

(** [c.isspace()]: tab, line feed, vertical tab, form feed, carriage return,
    the four separators 28..31 and the space. *)
Definition isspace (c : ascii) : bool :=
  let n := N_of_ascii c in
  (((9 <=? n) && (n <=? 13)) || ((28 <=? n) && (n <=? 31)) || (n =? 32))%N.

Fixpoint lstrip (s : string) : string :=
  match s with
  | EmptyString => EmptyString
  | String c s' => if isspace c then lstrip s' else s
  end.

Fixpoint rstrip (s : string) : string :=
  match s with
  | EmptyString => EmptyString
  | String c s' =>
      match rstrip s' with
      | EmptyString => if isspace c then EmptyString else String c EmptyString
      | r => String c r
      end
  end.

(** [s.strip()]. *)
Definition strip (s : string) : string := rstrip (lstrip s).


(** *** Argument values

    The values a caller can put in [args]: what JSON decoding produces.  A
    [float] is carried by the text Python prints for it. *)
#[warnings="-register-all"]
Inductive value : Type :=
| VNone
| VBool (b : bool)
| VInt (z : Z)
| VFloat (text : string)
| VStr (s : string)
| VList (l : list value)
| VDict (d : list (string * value)).

Fixpoint contains_char (c : ascii) (s : string) : bool :=
  match s with
  | EmptyString => false
  | String a s' => Ascii.eqb a c || contains_char c s'
  end.

Definition hex_digit (n : N) : ascii :=
  if (n <? 10)%N then ascii_of_N (48 + n) else ascii_of_N (87 + n).

(** One character of a text inside [repr], for the chosen quote. *)
Definition repr_char (quote c : ascii) : string :=
  let n := N_of_ascii c in
  if Ascii.eqb c quote || Ascii.eqb c "\"%char
  then String "\"%char (String c EmptyString)
  else if (n =? 9)%N then "\t"
  else if (n =? 10)%N then "\n"
  else if (n =? 13)%N then "\r"
  else if ((n <? 32) || (n =? 127))%N
  then String "\"%char (String "x"%char
         (String (hex_digit (n / 16)) (String (hex_digit (n mod 16)) EmptyString)))
  else String c EmptyString.

Fixpoint repr_chars (quote : ascii) (s : string) : string :=
  match s with
  | EmptyString => EmptyString
  | String c s' => repr_char quote c ++ repr_chars quote s'
  end.

(** [repr(s)] for a text: single quotes, unless the text has a single quote
    and no double quote. *)
Definition repr_str (s : string) : string :=
  let quote :=
    if contains_char "'"%char s && negb (contains_char (ascii_of_nat 34) s)
    then ascii_of_nat 34 else "'"%char in
  String quote (repr_chars quote s) ++ String quote EmptyString.

(** [repr(v)]. *)
Fixpoint repr (v : value) : string :=
  match v with
  | VNone => "None"
  | VBool true => "True"
  | VBool false => "False"
  | VInt z => str_int z
  | VFloat text => text
  | VStr s => repr_str s
  | VList l => "[" ++ join ", " (map repr l) ++ "]"
  | VDict d =>
      "{" ++ join ", "
               (map (fun kv => match kv with
                               | (k, x) => repr_str k ++ ": " ++ repr x
                               end) d) ++ "}"
  end.

(** [str(v)]: a text is itself, everything else prints as [repr]. *)
Definition str (v : value) : string :=
  match v with
  | VStr s => s
  | _ => repr v
  end.

End Py.

(** ** Python dictionaries

    A [dict] keeps its keys in insertion order and holds each key once.  It is
    an association list; [dict_set] overwrites in place or appends, as
    [d[k] = v] does, and [dict_wf] is the invariant that keys are distinct,
    which every dictionary built by [json.load] has. *)

Section Dict.

Context {V : Type}.

Definition dict := list (string * V).

(** [d.get(k)]: [None] when the key is absent. *)
Fixpoint dict_get (k : string) (d : dict) : option V :=
  match d with
  | [] => None
  | (k', v) :: d' => if String.eqb k' k then Some v else dict_get k d'
  end.

(** [k in d]. *)
Definition dict_mem (k : string) (d : dict) : bool :=
  match dict_get k d with Some _ => true | None => false end.

(** [d[k] = v]. *)
Fixpoint dict_set (k : string) (v : V) (d : dict) : dict :=
  match d with
  | [] => [(k, v)]
  | (k', v') :: d' =>
      if String.eqb k' k then (k', v) :: d' else (k', v') :: dict_set k v d'
  end.

(** [del d[k]], for a key that is present. *)
Fixpoint dict_del (k : string) (d : dict) : dict :=
  match d with
  | [] => []
  | (k', v') :: d' => if String.eqb k' k then d' else (k', v') :: dict_del k d'
  end.

Definition dict_keys (d : dict) : list string := map fst d.

Definition dict_wf (d : dict) : Prop := NoDup (dict_keys d).

(** Number of entries stored under [k]. *)
Definition dict_count (k : string) (d : dict) : nat :=
  List.length (filter (fun kv => String.eqb (fst kv) k) d).

End Dict.

Arguments dict V : clear implicits.

(** ** Data model *)

(** One script object of a task.  Every key of the object is optional. *)
Record script : Type := mkScript {
  s_name : option string;
  s_type : option string;
  s_code : option string;
  s_description : option string
}.

(** One task object: [{"prompt": ..., "scripts": [...]}]. *)
Record task : Type := mkTask {
  t_prompt : option string;
  t_scripts : option (list script)
}.

(** The whole tasks document: task name to task object. *)
Definition store : Type := dict task.

(** The tasks file at [MAC_TASKS_PATH]. *)
Inductive tasks_file : Type :=
| Missing
| Invalid (err traceback : string)
| Valid (tasks : store).

(** The exception classes the handlers tell apart: [json.JSONDecodeError] and
    any other [Exception].  Each carries [str(e)] and the text of
    [traceback.format_exc()]. *)
Inductive exn : Type :=
| JSONDecodeError (msg traceback : string)
| OtherError (msg traceback : string).

Definition str_exn (e : exn) : string :=
  match e with JSONDecodeError msg _ => msg | OtherError msg _ => msg end.

Definition format_exc (e : exn) : string :=
  match e with JSONDecodeError _ tb => tb | OtherError _ tb => tb end.

Inductive result (A : Type) : Type :=
| Ok (a : A)
| Raise (e : exn).

Arguments Ok {A} a.
Arguments Raise {A} e.

(** [MAC_TASKS_PATH.exists()]. *)
Definition path_exists (f : tasks_file) : bool :=
  match f with Missing => false | _ => true end.

(** [with open(MAC_TASKS_PATH, 'r') as f: json.load(f)].  Every operation
    tests [path_exists] first, so the first case is never reached. *)
Definition json_load (f : tasks_file) : result store :=
  match f with
  | Missing => Raise (OtherError "[Errno 2] No such file or directory" "")
  | Invalid err tb => Raise (JSONDecodeError err tb)
  | Valid tasks => Ok tasks
  end.

(** [x.get(key, default)] on an optional field. *)
Definition get_default {A : Type} (field : option A) (default : A) : A :=
  match field with Some a => a | None => default end.

(** [enumerate(l, start)]. *)
Fixpoint enumerate {A : Type} (start : Z) (l : list A) : list (Z * A) :=
  match l with
  | [] => []
  | x :: l' => (start, x) :: enumerate (start + 1) l'
  end.

(** Truth value of an optional list argument: [None] and [[]] are false. *)
Definition truthy_list {A : Type} (l : option (list A)) : bool :=
  match l with Some (_ :: _) => true | _ => false end.

Import Py.

(** ** nash_tasks.py: the registry *)

(** [save_nash_task(name, task_prompt, scripts=None)]: the message returned
    and the tasks file afterwards. *)
Definition save_nash_task (name task_prompt : string)
    (scripts : option (list script)) (f : tasks_file) : string * tasks_file :=
  let script_count :=
    if truthy_list scripts then List.length (get_default scripts []) else 0%nat in
  let loaded : result store :=
    if path_exists f then
      match json_load f with
      | Ok tasks => Ok tasks
      | Raise (JSONDecodeError _ _) => Ok []
      | Raise e => Raise e
      end
    else Ok [] in
  match loaded with
  | Ok tasks =>
      let task_data :=
        {| t_prompt := Some task_prompt;
           t_scripts := if truthy_list scripts then scripts else None |} in
      let tasks := dict_set name task_data tasks in
      ("Task '" ++ name ++ "' saved successfully with "
         ++ str_int (Z.of_nat script_count) ++ " scripts.",
       Valid tasks)
  | Raise e => ("Error saving task: " ++ str_exn e, f)
  end.

(** The body of the inner loop of [list_nash_tasks]. *)
Definition list_script_line (result : string) (script : script) : string :=
  let script_name := get_default (s_name script) "unnamed" in
  let script_type := get_default (s_type script) "unknown" in
  result ++ nl ++ "  - " ++ script_name ++ " (" ++ script_type ++ ")".

(** The body of the outer loop of [list_nash_tasks]. *)
Definition list_task_entry (result : string) (item : string * task) : string :=
  let (task_name, task_data) := item in
  let scripts := get_default (t_scripts task_data) [] in
  let script_count := List.length scripts in
  let result := result ++ "- " ++ task_name in
  let result :=
    if (0 <? script_count)%nat then
      let result :=
        result ++ " (" ++ str_int (Z.of_nat script_count) ++ " script"
               ++ (if (1 <? script_count)%nat then "s" else "") ++ ")" in
      let result := result ++ nl ++ "  Scripts:" in
      fold_left list_script_line scripts result
    else result ++ " (no scripts)" in
  result ++ nl ++ nl.

(** [list_nash_tasks()]. *)
Definition list_nash_tasks (f : tasks_file) : string :=
  if negb (path_exists f) then
    "No tasks file found. Use save_nash_task to create tasks."
  else
    match json_load f with
    | Ok tasks =>
        match tasks with
        | [] => "No tasks available."
        | _ :: _ =>
            let result := "Available tasks:" ++ nl ++ nl in
            let result := fold_left list_task_entry tasks result in
            result ++ "Use run_nash_task(task_name) to view complete task details."
        end
    | Raise e => "Error listing tasks: " ++ str_exn e
    end.

(** The body of the script loop of [run_nash_task]. *)
Definition run_script_entry (task_name : string) (result : string)
    (item : Z * script) : string :=
  let (i, script) := item in
  let script_name := get_default (s_name script) ("Script " ++ str_int i) in
  let script_type := get_default (s_type script) "unknown" in
  let description := get_default (s_description script) "No description provided" in
  let result :=
    result ++ nl ++ str_int i ++ ". " ++ script_name ++ " (" ++ script_type ++ ")" ++ nl in
  let result := result ++ "   Description: " ++ description ++ nl in
  result ++ "   Execute with: execute_task_script('" ++ task_name ++ "', '"
         ++ script_name ++ "', args=[])" ++ nl.

(** [run_nash_task(task_name)]. *)
Definition run_nash_task (task_name : string) (f : tasks_file) : string :=
  if negb (path_exists f) then
    "No tasks file found. Use save_nash_task to create tasks."
  else
    match json_load f with
    | Ok tasks =>
        match dict_get task_name tasks with
        | None =>
            "Task '" ++ task_name ++ "' not found. "
              ++ "Use list_nash_tasks to see available tasks."
        | Some task_data =>
            let prompt := get_default (t_prompt task_data) "No prompt available" in
            let scripts := get_default (t_scripts task_data) [] in
            let result :=
              "TASK: " ++ task_name ++ nl ++ nl ++ "PROMPT:" ++ nl ++ prompt ++ nl in
            match scripts with
            | _ :: _ =>
                let result := result ++ nl ++ "AVAILABLE SCRIPTS:" ++ nl in
                fold_left (run_script_entry task_name) (enumerate 1 scripts) result
            | [] => result ++ nl ++ "This task has no executable scripts."
            end
        end
    | Raise (JSONDecodeError msg _) =>
        "Error: Tasks file contains invalid JSON. " ++ msg
    | Raise e => "Error retrieving task: " ++ str_exn e
    end.

(** The body of the script loop of [view_task_details]. *)
Definition view_script_entry (task_name : string) (result : string)
    (item : Z * script) : string :=
  let (i, script) := item in
  let script_name := get_default (s_name script) ("Script " ++ str_int i) in
  let script_type := get_default (s_type script) "unknown" in
  let description := get_default (s_description script) "No description provided" in
  let code := get_default (s_code script) "No code available" in
  let result :=
    result ++ nl ++ str_int i ++ ". " ++ script_name ++ " (" ++ script_type ++ ")" ++ nl in
  let result := result ++ "   Description: " ++ description ++ nl in
  let result :=
    result ++ "   Code:" ++ nl ++ "```" ++ script_type ++ nl ++ code ++ nl ++ "```" ++ nl in
  result ++ "   Execute with: execute_task_script('" ++ task_name ++ "', '"
         ++ script_name ++ "', args=[])" ++ nl.

(** [view_task_details(task_name)]. *)
Definition view_task_details (task_name : string) (f : tasks_file) : string :=
  if negb (path_exists f) then
    "No tasks file found. Use save_nash_task to create tasks first."
  else
    match json_load f with
    | Ok tasks =>
        match dict_get task_name tasks with
        | None =>
            "Task '" ++ task_name
              ++ "' not found. Use list_nash_tasks to see available tasks."
        | Some task_data =>
            let prompt := get_default (t_prompt task_data) "No prompt available" in
            let scripts := get_default (t_scripts task_data) [] in
            let result :=
              "TASK: " ++ task_name ++ nl ++ nl ++ "PROMPT:" ++ nl ++ prompt ++ nl in
            match scripts with
            | _ :: _ =>
                let result := result ++ nl ++ "SCRIPTS:" ++ nl in
                fold_left (view_script_entry task_name) (enumerate 1 scripts) result
            | [] => result ++ nl ++ "This task has no executable scripts."
            end
        end
    | Raise (JSONDecodeError msg _) =>
        "Error: Tasks file contains invalid JSON. " ++ msg
    | Raise e => "Error viewing task details: " ++ str_exn e
    end.

(** [delete_nash_task(name)]: the message returned and the tasks file
    afterwards. *)
Definition delete_nash_task (name : string) (f : tasks_file)
    : string * tasks_file :=
  if negb (path_exists f) then
    ("No tasks file found. Nothing to delete.", f)
  else
    match json_load f with
    | Ok tasks =>
        if negb (dict_mem name tasks) then
          ("Task '" ++ name
             ++ "' not found. Use list_nash_tasks() to see available tasks.", f)
        else
          let tasks := dict_del name tasks in
          ("Task '" ++ name ++ "' deleted successfully.", Valid tasks)
    | Raise e => ("Error deleting task: " ++ str_exn e, f)
    end.

(** ** The runners and the script dispatch *)

(** What [subprocess] reports for one child process: it ran to completion
    with a return code and the two captured streams, or starting it raised
    an exception, given by [str(e)] and [traceback.format_exc()]. *)
Inductive process_outcome : Type :=
| Completed (returncode : Z) (stdout stderr : string)
| Failed (msg traceback : string).

(** One call of a runner, with the text handed to it. *)
Inductive runner_call : Type :=
| Call_execute_command (cmd : string)
| Call_execute_python (code : string).

(** A result together with the runner calls made to obtain it. *)
Definition traced (A : Type) : Type := A * list runner_call.

Definition reply {A : Type} (a : A) : traced A := (a, []).

Section Runners.

(** [subprocess.Popen(cmd, shell=True)] followed by [communicate()]. *)
Variable shell_process : string -> process_outcome.

(** The code written to a temporary file and run by [sys.executable] with
    the secrets in its environment. *)
Variable python_process : string -> process_outcome.

(** execute_command.py: [execute_command(cmd)]. *)
Definition execute_command (cmd : string) : string :=
  match shell_process cmd with
  | Completed returncode stdout stderr =>
      if (returncode =? 0)%Z then
        if truthy (strip stdout) then stdout else "Command executed (no output)."
      else
        "Command failed (exit code " ++ str_int returncode ++ ")." ++ nl
          ++ "STDOUT:" ++ nl ++ stdout ++ nl ++ "STDERR:" ++ nl ++ stderr
  | Failed msg traceback =>
      "Exception: " ++ msg ++ nl ++ "Traceback:" ++ nl ++ traceback
  end.

(** execute_python.py: [execute_python(code)]. *)
Definition execute_python (code : string) : string :=
  match python_process code with
  | Completed returncode stdout stderr =>
      if (returncode =? 0)%Z then
        if truthy stdout then stdout else "Code executed successfully (no output)"
      else
        "Error (return code " ++ str_int returncode ++ "):" ++ nl ++ stderr
  | Failed msg traceback =>
      "Error: " ++ msg ++ nl ++ "Traceback: " ++ traceback ++ nl ++ nl
  end.

(** [script.get("name") == script_name]. *)
Definition name_matches (script_name : string) (script : script) : bool :=
  match s_name script with
  | Some n => String.eqb n script_name
  | None => false
  end.

(** The search loop of [execute_task_script]: the first script whose name is
    [script_name], or [None]. *)
Fixpoint find_script (script_name : string) (scripts : list script)
    : option script :=
  match scripts with
  | [] => None
  | script :: rest =>
      if name_matches script_name script then Some script
      else find_script script_name rest
  end.

(** [execute_task_script(task_name, script_name, args=None)]. *)
Definition execute_task_script (task_name script_name : string)
    (args : option (list value)) (f : tasks_file) : traced string :=
  if negb (path_exists f) then
    reply "No tasks file found. Use save_nash_task to create tasks first."
  else
    match json_load f with
    | Ok tasks =>
        match dict_get task_name tasks with
        | None =>
            reply ("Task '" ++ task_name ++ "' not found. "
                     ++ "Use list_nash_tasks to see available tasks.")
        | Some task_data =>
            let scripts := get_default (t_scripts task_data) [] in
            match scripts with
            | [] => reply ("Task '" ++ task_name ++ "' does not contain any scripts.")
            | _ :: _ =>
                match find_script script_name scripts with
                | None =>
                    let script_names :=
                      map (fun s => get_default (s_name s) "unnamed") scripts in
                    reply ("Script '" ++ script_name ++ "' not found in task '"
                             ++ task_name ++ "'. "
                             ++ "Available scripts: " ++ join ", " script_names)
                | Some target_script =>
                    let script_type := lower (get_default (s_type target_script) "") in
                    let script_code := get_default (s_code target_script) "" in
                    if negb (truthy script_code) then
                      reply ("Script '" ++ script_name ++ "' contains no code to execute.")
                    else
                      let args := if truthy_list args then get_default args [] else [] in
                      if String.eqb script_type "python" then
                        let wrapped_code :=
                          "task_args = " ++ repr (VList args) ++ nl ++ nl ++ script_code in
                        (execute_python wrapped_code, [Call_execute_python wrapped_code])
                      else if String.eqb script_type "command" then
                        let full_command :=
                          match args with
                          | _ :: _ =>
                              let arg_str := join " " (map str args) in
                              script_code ++ " " ++ arg_str
                          | [] => script_code
                          end in
                        (execute_command full_command, [Call_execute_command full_command])
                      else
                        reply ("Unknown script type '" ++ script_type
                                 ++ "'. Supported types are 'python' and 'command'.")
                end
            end
        end
    | Raise (JSONDecodeError msg _) =>
        reply ("Error: Tasks file contains invalid JSON. " ++ msg)
    | Raise e =>
        reply ("Error executing script: " ++ str_exn e ++ nl
                 ++ "Traceback: " ++ format_exc e)
    end.

End Runners.

(** ** Vocabulary of the properties *)

(** [x] occurs in [r] as a contiguous piece. *)
Definition occurs (x r : string) : Prop :=
  exists pre post, r = pre ++ x ++ post.

(** The texts [xs] occur in [r] one after the other, without overlap. *)
Fixpoint occurs_in_order (xs : list string) (r : string) : Prop :=
  match xs with
  | [] => True
  | x :: xs' => exists pre post, r = pre ++ x ++ post /\ occurs_in_order xs' post
  end.


(** The keys of a tasks file that parses are distinct. *)
Definition tasks_file_wf (f : tasks_file) : Prop :=
  match f with
  | Valid tasks => dict_wf tasks
  | _ => True
  end.

(** The message by which [run_nash_task], [view_task_details] and
    [execute_task_script] report a tasks file that does not parse. *)
Definition invalid_json_message (msg : string) : string :=
  "Error: Tasks file contains invalid JSON. " ++ msg.

(** The task object that [save_nash_task] stores. *)
Definition saved_task (task_prompt : string) (scripts : option (list script)) : task :=
  {| t_prompt := Some task_prompt;
     t_scripts := if truthy_list scripts then scripts else None |}.

(** A script object with the three required keys present. *)
Definition well_formed_script (s : script) : Prop :=
  s_name s <> None /\ s_type s <> None /\ s_code s <> None.

(** The texts of a script object that a report has to show, in the order of
    the report: name, type, description when there is one, code. *)
Definition script_fields (s : script) : list string :=
  (match s_name s with Some x => [x] | None => [] end
   ++ match s_type s with Some x => [x] | None => [] end
   ++ match s_description s with Some x => [x] | None => [] end
   ++ match s_code s with Some x => [x] | None => [] end)%list.

(** [args or []]. *)
Definition args_or_empty (args : option (list value)) : list value :=
  match args with Some l => l | None => [] end.

(** [target_script] is what the search loop of [execute_task_script] finds
    for [script_name] in task [task_name] of a tasks file that parses. *)
Definition resolves (f : tasks_file) (task_name script_name : string)
    (target_script : script) : Prop :=
  exists tasks task_data scripts,
    f = Valid tasks /\
    dict_get task_name tasks = Some task_data /\
    t_scripts task_data = Some scripts /\
    find_script script_name scripts = Some target_script.

(** The command line of the property on command scripts: the code alone, or
    the code, one space, and the stringified arguments joined by single
    spaces. *)
Definition command_line (c : string) (a : list value) : string :=
  match a with
  | [] => c
  | _ :: _ => c ++ " " ++ join " " (map str a)
  end.

(** The source text of the property on Python scripts: the assignment of the
    argument list to [task_args], a blank line, the code. *)
Definition wrapped_source (c : string) (a : list value) : string :=
  "task_args = " ++ repr (VList a) ++ nl ++ nl ++ c.

(** The message for a script type that is not supported. *)
Definition unknown_type_message (script_type : string) : string :=
  "Unknown script type '" ++ script_type
    ++ "'. Supported types are 'python' and 'command'.".

(** A process oracle that always completes with the given report. *)
Definition always (rc : Z) (out err : string) : string -> process_outcome :=
  fun _ => Completed rc out err.

(** A tasks file with the single task [t], whose only script is [sc]. *)
Definition one_script_file (sc : script) : tasks_file :=
  Valid [("t", mkTask (Some "p") (Some [sc]))].

(** ** execute_command.py: the command text that is logged *)

(** [s.split()]: the maximal runs of characters that are not white space.
    [word] is the run being read. *)
Fixpoint split_from (word s : string) : list string :=
  match s with
  | EmptyString => if truthy word then [word] else []
  | String c s' =>
      if isspace c then
        if truthy word then word :: split_from "" s' else split_from "" s'
      else split_from (word ++ String c EmptyString) s'
  end.

Definition split (s : string) : list string := split_from "" s.




(** ** execute_python.py: the environment of the child process *)

(** One entry of the secrets file: an object whose keys [key] and [value] are
    optional. *)
Record secret : Type := mkSecret {
  secret_key : option string;
  secret_value : option string
}.

(** The secrets file at [MAC_SECRETS_PATH]: absent, text that [json.load]
    rejects, or a JSON array of secret objects. *)
Inductive secrets_file : Type :=
| NoSecrets
| BadSecrets (err : string)
| Secrets (entries : list secret).

(** The body of the loop over the secrets. *)
Definition add_secret (env_vars : dict string) (s : secret) : dict string :=
  match secret_key s, secret_value s with
  | Some k, Some v => dict_set k v env_vars
  | _, _ => env_vars
  end.

(** [env_vars] as [execute_python] passes it to [subprocess.run]: a copy of
    [os.environ] with the secrets written over it.  A secrets file that does
    not parse raises before the loop; the handler logs a warning and the copy
    is used as it is. *)
Definition python_env (environ : dict string) (f : secrets_file) : dict string :=
  match f with
  | NoSecrets => environ
  | BadSecrets _ => environ
  | Secrets entries => fold_left add_secret entries environ
  end.

(** ** nash_tasks.py: the argument text that is logged *)


(** ** Vocabulary of the further properties *)

(** The last entry of the secrets that has both keys and whose key is [k]. *)
Definition last_secret (k : string) (entries : list secret) : option string :=
  fold_left
    (fun found s =>
       match secret_key s, secret_value s with
       | Some k', Some v => if String.eqb k' k then Some v else found
       | _, _ => found
       end)
    entries None.

(** The texts that [list_nash_tasks] has to show for one task, in the order of
    the report: its name, then the no-scripts note, or the count and each
    script's name and type. *)
Definition listing_fields (item : string * task) : list string :=
  let scripts := get_default (t_scripts (snd item)) [] in
  fst item ::
  match scripts with
  | [] => [" (no scripts)"]
  | _ :: _ =>
      (" (" ++ str_int (Z.of_nat (List.length scripts)) ++ " script"
            ++ (if (1 <? List.length scripts)%nat then "s" else "") ++ ")")
      :: flat_map (fun sc => [get_default (s_name sc) "unnamed";
                              get_default (s_type sc) "unknown"]) scripts
  end.

(** The texts that [run_nash_task] has to show for the script numbered [i]:
    number and name, type, description, and the line with the call that runs
    it. *)
Definition run_fields (task_name : string) (item : Z * script) : list string :=
  let (i, sc) := item in
  let script_name := get_default (s_name sc) ("Script " ++ str_int i) in
  [str_int i ++ ". " ++ script_name;
   get_default (s_type sc) "unknown";
   get_default (s_description sc) "No description provided";
   "   Execute with: execute_task_script('" ++ task_name ++ "', '"
     ++ script_name ++ "', args=[])"].

(** A script object without its [code] key. *)
Definition without_code (sc : script) : script :=
  mkScript (s_name sc) (s_type sc) None (s_description sc).

(** A task object whose scripts have lost their [code] key. *)
Definition task_without_code (t : task) : task :=
  mkTask (t_prompt t)
         (match t_scripts t with
          | Some l => Some (map without_code l)
          | None => None
          end).



(** ** Sample data *)

Definition sample_script : script :=
  mkScript (Some "greet") (Some "python") (Some "print('hi')") (Some "Says hi").

(** * Properties *)

(** ** Text *)

Lemma append_assoc (a b c : string) : (a ++ b) ++ c = a ++ b ++ c.
Proof. induction a as [|x a IH]; simpl; [reflexivity | now rewrite IH]. Qed.

Lemma append_empty_r (a : string) : a ++ "" = a.
Proof. induction a as [|x a IH]; simpl; [reflexivity | now rewrite IH]. Qed.




Lemma occurs_in_order_prepend (xs : list string) (p r : string) :
  occurs_in_order xs r -> occurs_in_order xs (p ++ r).
Proof.
  destruct xs as [|x xs]; simpl; [trivial|].
  intros [pre [post [-> H]]].
  exists (p ++ pre), post. split; [now rewrite append_assoc | exact H].
Qed.

Lemma occurs_in_order_append (xs : list string) (r q : string) :
  occurs_in_order xs r -> occurs_in_order xs (r ++ q).
Proof.
  revert r. induction xs as [|x xs IH]; simpl; [trivial|].
  intros r [pre [post [-> H]]].
  exists pre, (post ++ q). split; [now rewrite !append_assoc | now apply IH].
Qed.

Lemma occurs_in_order_app (xs ys : list string) (r q : string) :
  occurs_in_order xs r -> occurs_in_order ys q ->
  occurs_in_order (xs ++ ys) (r ++ q).
Proof.
  revert r. induction xs as [|x xs IH]; simpl.
  - intros r _ H. now apply occurs_in_order_prepend.
  - intros r [pre [post [-> H]]] Hq.
    exists pre, (post ++ q). split; [now rewrite !append_assoc | now apply IH].
Qed.

Lemma occurs_in_order_occurs (xs : list string) (x r : string) :
  occurs_in_order xs r -> In x xs -> occurs x r.
Proof.
  revert r. induction xs as [|y xs IH]; simpl; [tauto|].
  intros r [pre [post [-> H]]] [->|Hin].
  - now exists pre, post.
  - destruct (IH _ H Hin) as [pre' [post' ->]].
    exists (pre ++ y ++ pre'), post'. now rewrite !append_assoc.
Qed.





(** ** Dictionaries *)

Section DictFacts.

Context {V : Type}.
Implicit Types (d : dict V) (k : string) (v : V).

Lemma dict_get_set_same k v d : dict_get k (dict_set k v d) = Some v.
Proof.
  induction d as [|[k' v'] d IH]; simpl.
  - now rewrite String.eqb_refl.
  - destruct (String.eqb k' k) eqn:E; simpl; now rewrite E.
Qed.

Lemma dict_set_set k v1 v2 d :
  dict_set k v2 (dict_set k v1 d) = dict_set k v2 d.
Proof.
  induction d as [|[k' v'] d IH]; simpl.
  - now rewrite String.eqb_refl.
  - destruct (String.eqb k' k) eqn:E; simpl; rewrite E; [reflexivity | now rewrite IH].
Qed.

Lemma dict_keys_set k v d k0 :
  In k0 (dict_keys (dict_set k v d)) <-> k0 = k \/ In k0 (dict_keys d).
Proof.
  induction d as [|[k' v'] d IH]; simpl.
  - intuition congruence.
  - destruct (String.eqb k' k) eqn:E; simpl.
    + apply String.eqb_eq in E. subst. intuition congruence.
    + rewrite IH. tauto.
Qed.

Lemma dict_wf_set k v d : dict_wf d -> dict_wf (dict_set k v d).
Proof.
  unfold dict_wf. induction d as [|[k' v'] d IH]; simpl; intros H.
  - constructor; [simpl; tauto | constructor].
  - inversion H as [|? ? Hnot Hd]; subst.
    destruct (String.eqb k' k) eqn:E; simpl.
    + now constructor.
    + constructor; [|now apply IH].
      intros Hin. apply dict_keys_set in Hin. destruct Hin as [->|Hin].
      * now rewrite String.eqb_refl in E.
      * now apply Hnot.
Qed.

Lemma dict_count_absent k d : ~ In k (dict_keys d) -> dict_count k d = 0%nat.
Proof.
  unfold dict_count. induction d as [|[k' v'] d IH]; simpl; intros H; [reflexivity|].
  destruct (String.eqb k' k) eqn:E.
  - apply String.eqb_eq in E. tauto.
  - apply IH. tauto.
Qed.

Lemma dict_count_set k v d :
  dict_wf d -> dict_count k (dict_set k v d) = 1%nat.
Proof.
  unfold dict_wf. induction d as [|[k' v'] d IH]; simpl; intros H.
  - unfold dict_count. simpl. now rewrite String.eqb_refl.
  - inversion H as [|? ? Hnot Hd]; subst.
    destruct (String.eqb k' k) eqn:E.
    + unfold dict_count. simpl. rewrite E. simpl. f_equal.
      apply String.eqb_eq in E. subst. now apply dict_count_absent.
    + unfold dict_count in *. simpl. rewrite E. now apply IH.
Qed.

Lemma dict_get_absent k d : ~ In k (dict_keys d) -> dict_get k d = None.
Proof.
  induction d as [|[k' v'] d IH]; simpl; intros H; [reflexivity|].
  destruct (String.eqb k' k) eqn:E.
  - apply String.eqb_eq in E. tauto.
  - apply IH. tauto.
Qed.

Lemma dict_get_del k d : dict_wf d -> dict_get k (dict_del k d) = None.
Proof.
  unfold dict_wf. induction d as [|[k' v'] d IH]; simpl; intros H; [reflexivity|].
  inversion H as [|? ? Hnot Hd]; subst.
  destruct (String.eqb k' k) eqn:E; simpl.
  - apply String.eqb_eq in E. subst. now apply dict_get_absent.
  - rewrite E. now apply IH.
Qed.

End DictFacts.

(** ** Reports of [view_task_details] *)

Lemma occurs_in_order_here (x : string) (xs : list string) (post : string) :
  occurs_in_order xs post -> occurs_in_order (x :: xs) (x ++ post).
Proof. intros H. exists "", post. now split. Qed.

Lemma occurs_in_order_last (x : string) : occurs_in_order [x] x.
Proof. exists "", "". split; [now rewrite append_empty_r | exact I]. Qed.

(** Walks along a chain of appended pieces, matching the expected texts. *)
Ltac walk_report :=
  repeat first
    [ exact I
    | apply occurs_in_order_last
    | apply occurs_in_order_here
    | apply occurs_in_order_prepend ].

Lemma view_script_entry_acc (task_name result : string) (item : Z * script) :
  view_script_entry task_name result item
  = result ++ view_script_entry task_name "" item.
Proof.
  destruct item as [i sc]. unfold view_script_entry.
  change ("" ++ ?x) with x. now rewrite !append_assoc.
Qed.

Lemma fold_left_view_script_entry (task_name : string)
    (items : list (Z * script)) (result : string) :
  fold_left (view_script_entry task_name) items result
  = result ++ String.concat "" (map (view_script_entry task_name "") items).
Proof.
  revert result. induction items as [|item items IH]; intros result; simpl.
  - now rewrite append_empty_r.
  - rewrite IH, view_script_entry_acc, append_assoc. f_equal.
    destruct items; simpl; [now rewrite !append_empty_r | reflexivity].
Qed.

Lemma view_script_entry_fields (task_name : string) (i : Z) (sc : script) :
  well_formed_script sc ->
  occurs_in_order (script_fields sc) (view_script_entry task_name "" (i, sc)).
Proof.
  destruct sc as [[a|] [b|] [c|] d]; unfold well_formed_script;
    cbn [s_name s_type s_code]; intros [Ha [Hb Hc]]; try congruence.
  unfold view_script_entry, script_fields, get_default;
    cbn [s_name s_type s_code s_description].
  rewrite !append_assoc.
  destruct d as [d|]; cbn [app]; walk_report.
Qed.

Lemma view_script_entries_fields (task_name : string) (scripts : list script) :
  forall start : Z,
  Forall well_formed_script scripts ->
  occurs_in_order (flat_map script_fields scripts)
    (String.concat "" (map (view_script_entry task_name "") (enumerate start scripts))).
Proof.
  induction scripts as [|sc scripts IH]; intros start Hwf; [exact I|].
  inversion Hwf as [|? ? Hsc Hrest]; subst.
  cbn [flat_map enumerate map].
  replace (String.concat "" (view_script_entry task_name "" (start, sc)
             :: map (view_script_entry task_name "") (enumerate (start + 1) scripts)))
    with (view_script_entry task_name "" (start, sc)
            ++ String.concat "" (map (view_script_entry task_name "")
                                   (enumerate (start + 1) scripts))).
  - apply occurs_in_order_app; [now apply view_script_entry_fields | now apply IH].
  - destruct (enumerate (start + 1) scripts); cbn [map String.concat];
      [now rewrite append_empty_r | reflexivity].
Qed.

Lemma save_nash_task_file (name task_prompt : string)
    (scripts : option (list script)) (f : tasks_file) :
  snd (save_nash_task name task_prompt scripts f)
  = Valid (dict_set name (saved_task task_prompt scripts)
             match f with Valid tasks => tasks | _ => [] end).
Proof. destruct f; reflexivity. Qed.

(** C3.  Saving a task and then viewing it: whatever the tasks file held
    before (absent, unparsable or a store), after
    [save_nash_task n p s] with well-formed scripts [s] the file holds under
    [n] the task with prompt [p] and script list [s], and the report of
    [view_task_details n] contains [p] and then, script after script in list
    order, each script's name, type, description (when it has one) and
    code, all verbatim. *)
Theorem C3_save_then_view_round_trip (n p : string) (s : list script) (f : tasks_file) :
  n <> "" -> p <> "" -> Forall well_formed_script s ->
  let f' := snd (save_nash_task n p (Some s) f) in
  (exists tasks,
      f' = Valid tasks /\
      dict_get n tasks = Some (saved_task p (Some s)) /\
      t_prompt (saved_task p (Some s)) = Some p /\
      get_default (t_scripts (saved_task p (Some s))) [] = s) /\
  occurs_in_order (p :: flat_map script_fields s) (view_task_details n f').
Proof.
  intros _ _ Hwf f'. subst f'. rewrite save_nash_task_file.
  set (tasks := dict_set n _ _). split.
  - exists tasks. repeat split.
    + apply dict_get_set_same.
    + now destruct s.
  - unfold view_task_details. cbn [path_exists negb json_load].
    unfold tasks. rewrite dict_get_set_same.
    destruct s as [|sc s].
    + cbn [saved_task truthy_list t_prompt t_scripts get_default flat_map].
      rewrite !append_assoc. walk_report.
    + cbn [saved_task truthy_list t_prompt t_scripts get_default].
      rewrite fold_left_view_script_entry.
      rewrite !append_assoc.
      do 6 apply occurs_in_order_prepend.
      apply occurs_in_order_here.
      do 4 apply occurs_in_order_prepend.
      now apply view_script_entries_fields.
Qed.

Lemma C3_save_then_view_round_trip_witness :
  "hello" <> "" /\ "Say hi" <> "" /\ Forall well_formed_script [sample_script] /\
  occurs_in_order ["Say hi"; "greet"; "python"; "Says hi"; "print('hi')"]
    (view_task_details "hello"
       (snd (save_nash_task "hello" "Say hi" (Some [sample_script]) (Invalid "bad" "")))).
Proof.
  assert (Hn : "hello" <> "") by discriminate.
  assert (Hp : "Say hi" <> "") by discriminate.
  assert (Hs : Forall well_formed_script [sample_script])
    by (repeat constructor; discriminate).
  repeat split; try assumption.
  exact (proj2 (C3_save_then_view_round_trip "hello" "Say hi" [sample_script]
                  (Invalid "bad" "") Hn Hp Hs)).
Defined.

(** ** Overwriting and deleting *)

Lemma save_nash_task_wf (name task_prompt : string)
    (scripts : option (list script)) (f : tasks_file) :
  tasks_file_wf f -> tasks_file_wf (snd (save_nash_task name task_prompt scripts f)).
Proof.
  intros H. rewrite save_nash_task_file. cbn [tasks_file_wf].
  apply dict_wf_set. destruct f; try exact H; constructor.
Qed.

(** C4.  Saving twice under one name: after [save_nash_task n p1 s1] and
    then [save_nash_task n p2 s2] the tasks file holds exactly one entry under
    [n]; that entry is the task object of the second save (its prompt is [p2],
    its scripts are [s2], nothing of the first save is merged in), and the
    file is the one that the second save alone would have left. *)
Theorem C4_second_save_replaces (n p1 p2 : string)
    (s1 s2 : option (list script)) (f : tasks_file) :
  tasks_file_wf f ->
  let f2 := snd (save_nash_task n p2 s2 (snd (save_nash_task n p1 s1 f))) in
  (exists tasks,
      f2 = Valid tasks /\
      dict_count n tasks = 1%nat /\
      dict_get n tasks = Some (saved_task p2 s2)) /\
  f2 = snd (save_nash_task n p2 s2 f).
Proof.
  intros Hwf f2. subst f2. rewrite !save_nash_task_file. split.
  - eexists. split; [reflexivity|]. split.
    + apply dict_count_set, dict_wf_set. destruct f; try exact Hwf; constructor.
    + apply dict_get_set_same.
  - now rewrite dict_set_set.
Qed.

Lemma C4_second_save_replaces_witness :
  let f := Valid [("a", saved_task "first" None); ("b", saved_task "other" None)] in
  tasks_file_wf f /\
  snd (save_nash_task "a" "second" None
         (snd (save_nash_task "a" "first again" (Some [sample_script]) f)))
  = Valid [("a", saved_task "second" None); ("b", saved_task "other" None)].
Proof.
  assert (H : tasks_file_wf
                (Valid [("a", saved_task "first" None); ("b", saved_task "other" None)])).
  { repeat constructor; simpl; intuition discriminate. }
  split; [exact H|].
  exact (proj2 (C4_second_save_replaces "a" "first again" "second"
                  (Some [sample_script]) None _ H)).
Defined.

Lemma dict_wf_del {V : Type} (k : string) (d : dict V) :
  dict_wf d -> dict_wf (dict_del k d).
Proof.
  unfold dict_wf. induction d as [|[k' v'] d IH]; simpl; intros H; [exact H|].
  inversion H as [|? ? Hnot Hd]; subst.
  destruct (String.eqb k' k) eqn:E; simpl; [exact Hd|].
  constructor; [|now apply IH].
  intros Hin. apply Hnot. clear - Hin.
  induction d as [|[k2 v2] d IHd]; simpl in *; [exact Hin|].
  destruct (String.eqb k2 k); simpl in *; tauto.
Qed.

Lemma delete_nash_task_wf (name : string) (f : tasks_file) :
  tasks_file_wf f -> tasks_file_wf (snd (delete_nash_task name f)).
Proof.
  intros H. destruct f as [| |tasks]; try exact H.
  unfold delete_nash_task. cbn [path_exists negb json_load].
  destruct (dict_mem name tasks); cbn [negb snd tasks_file_wf]; [|exact H].
  now apply dict_wf_del.
Qed.

(** C9.  Delete, then look up: when [n] is a key of the tasks file,
    [delete_nash_task n] reports success, and on the file it leaves
    [run_nash_task n] and [execute_task_script n s args] (for every script
    name [s] and argument list) return the message that task [n] is not
    found, no runner is called, and a second [delete_nash_task n] returns its
    not-found message and leaves the file as it is. *)
Theorem C9_delete_then_not_found
    (shell_process python_process : string -> process_outcome)
    (n s : string) (args : option (list value)) (tasks : store) :
  dict_wf tasks -> dict_mem n tasks = true ->
  let f' := snd (delete_nash_task n (Valid tasks)) in
  fst (delete_nash_task n (Valid tasks)) = "Task '" ++ n ++ "' deleted successfully." /\
  run_nash_task n f'
    = "Task '" ++ n ++ "' not found. Use list_nash_tasks to see available tasks." /\
  execute_task_script shell_process python_process n s args f'
    = ("Task '" ++ n ++ "' not found. Use list_nash_tasks to see available tasks.", []) /\
  delete_nash_task n f'
    = ("Task '" ++ n ++ "' not found. Use list_nash_tasks() to see available tasks.", f').
Proof.
  intros Hwf Hmem f'.
  assert (Hdel : delete_nash_task n (Valid tasks)
                 = ("Task '" ++ n ++ "' deleted successfully.",
                    Valid (dict_del n tasks))).
  { unfold delete_nash_task. cbn [path_exists negb json_load]. now rewrite Hmem. }
  subst f'. rewrite Hdel. cbn [fst snd].
  pose proof (dict_get_del n tasks Hwf) as Hget.
  repeat split.
  - unfold run_nash_task. cbn [path_exists negb json_load]. now rewrite Hget.
  - unfold execute_task_script. cbn [path_exists negb json_load]. now rewrite Hget.
  - unfold delete_nash_task. cbn [path_exists negb json_load].
    unfold dict_mem. now rewrite Hget.
Qed.

Lemma C9_delete_then_not_found_witness :
  let tasks := [("a", saved_task "first" (Some [sample_script]));
                ("b", saved_task "other" None)] in
  let quiet := fun _ : string => Completed 0 "" "" in
  dict_wf tasks /\ dict_mem "a" tasks = true /\
  execute_task_script quiet quiet "a" "greet" None
    (snd (delete_nash_task "a" (Valid tasks)))
  = ("Task 'a' not found. Use list_nash_tasks to see available tasks.", []).
Proof.
  assert (H : dict_wf [("a", saved_task "first" (Some [sample_script]));
                       ("b", saved_task "other" None)]).
  { repeat constructor; simpl; intuition discriminate. }
  split; [exact H|]. split; [reflexivity|].
  exact (proj1 (proj2 (proj2
    (C9_delete_then_not_found (fun _ => Completed 0 "" "") (fun _ => Completed 0 "" "")
       "a" "greet" None _ H eq_refl)))).
Defined.

(** ** A tasks file that does not parse *)

Lemma save_nash_task_unparsable (n p : string) (s : option (list script))
    (err tb : string) :
  save_nash_task n p s (Invalid err tb) = save_nash_task n p s Missing /\
  snd (save_nash_task n p s (Invalid err tb)) = Valid [(n, saved_task p s)].
Proof. split; reflexivity. Qed.

Lemma read_operations_unparsable
    (shell_process python_process : string -> process_outcome)
    (n s : string) (args : option (list value)) (err tb : string) :
  run_nash_task n (Invalid err tb) = invalid_json_message err /\
  view_task_details n (Invalid err tb) = invalid_json_message err /\
  execute_task_script shell_process python_process n s args (Invalid err tb)
  = (invalid_json_message err, []).
Proof. repeat split; reflexivity. Qed.

(** C1.  On a tasks file that exists and does not parse, [list_nash_tasks]
    goes through its only handler, the one for every exception: it returns
    ["Error listing tasks: "] followed by the text of the decoding error, which
    is not the invalid-JSON message that [run_nash_task],
    [view_task_details] and [execute_task_script] return for the same file. *)
Theorem C1_list_nash_tasks_unparsable (err tb : string) :
  list_nash_tasks (Invalid err tb) = "Error listing tasks: " ++ err /\
  forall msg, list_nash_tasks (Invalid err tb) <> invalid_json_message msg.
Proof.
  split; [reflexivity|].
  intros msg H. cbn in H. discriminate H.
Qed.

(** ** Script resolution and dispatch *)

Section Dispatch.

Variables shell_process python_process : string -> process_outcome.

Abbreviation execute := (execute_task_script shell_process python_process).

Lemma name_matches_iff (script_name : string) (sc : script) :
  name_matches script_name sc = true <-> s_name sc = Some script_name.
Proof.
  unfold name_matches. destruct (s_name sc) as [n|].
  - rewrite String.eqb_eq. split; congruence.
  - split; discriminate.
Qed.


Lemma find_script_split (script_name : string) (scripts : list script) (sc : script) :
  find_script script_name scripts = Some sc ->
  exists pre post,
    scripts = (pre ++ sc :: post)%list /\
    s_name sc = Some script_name /\
    Forall (fun x => s_name x <> Some script_name) pre.
Proof.
  induction scripts as [|x scripts IH]; cbn [find_script]; [discriminate|].
  destruct (name_matches script_name x) eqn:E.
  - intros [= ->]. exists [], scripts. apply name_matches_iff in E. now repeat split.
  - intros H. destruct (IH H) as (pre & post & -> & Hn & Hpre).
    exists (x :: pre), post. repeat split; try assumption.
    constructor; [|assumption].
    intros Hx. apply name_matches_iff in Hx. congruence.
Qed.

(** What [execute_task_script] does once its search loop has found
    [target_script]. *)
Lemma execute_task_script_resolved (f : tasks_file) (task_name script_name : string)
    (target_script : script) (args : option (list value)) :
  resolves f task_name script_name target_script ->
  execute task_name script_name args f =
    let script_type := lower (get_default (s_type target_script) "") in
    let script_code := get_default (s_code target_script) "" in
    let a := args_or_empty args in
    if negb (truthy script_code) then
      reply ("Script '" ++ script_name ++ "' contains no code to execute.")
    else if String.eqb script_type "python" then
      (execute_python python_process (wrapped_source script_code a),
       [Call_execute_python (wrapped_source script_code a)])
    else if String.eqb script_type "command" then
      (execute_command shell_process (command_line script_code a),
       [Call_execute_command (command_line script_code a)])
    else reply (unknown_type_message script_type).
Proof.
  intros (tasks & task_data & scripts & -> & Hget & Hscripts & Hfind).
  unfold execute_task_script. cbn [path_exists negb json_load].
  rewrite Hget, Hscripts. cbn [get_default].
  destruct scripts as [|s0 scripts]; [discriminate Hfind|].
  rewrite Hfind. cbv zeta.
  destruct (negb (truthy (get_default (s_code target_script) ""))); [reflexivity|].
  destruct (String.eqb (lower (get_default (s_type target_script) "")) "python").
  - destruct args as [[|v l]|]; reflexivity.
  - destruct (String.eqb (lower (get_default (s_type target_script) "")) "command");
      [|reflexivity].
    destruct args as [[|v l]|]; reflexivity.
Qed.

(** Every call of [execute_task_script] makes no runner call, or exactly one,
    and then returns that runner's report unchanged. *)
Lemma execute_task_script_calls (f : tasks_file) (task_name script_name : string)
    (args : option (list value)) :
  snd (execute task_name script_name args f) = [] \/
  (exists cmd, execute task_name script_name args f
               = (execute_command shell_process cmd, [Call_execute_command cmd])) \/
  (exists code, execute task_name script_name args f
                = (execute_python python_process code, [Call_execute_python code])).
Proof.
  destruct f as [|err tb|tasks]; [now left | now left |].
  destruct (dict_get task_name tasks) as [task_data|] eqn:Hget.
  2:{ left. unfold execute_task_script. cbn [path_exists negb json_load].
      now rewrite Hget. }
  destruct (t_scripts task_data) as [scripts|] eqn:Hscripts.
  2:{ left. unfold execute_task_script. cbn [path_exists negb json_load].
      now rewrite Hget, Hscripts. }
  destruct (find_script script_name scripts) as [sc|] eqn:Hfind.
  - rewrite (execute_task_script_resolved (Valid tasks) task_name script_name sc args)
      by (now exists tasks, task_data, scripts).
    cbv zeta.
    destruct (negb (truthy _)); [now left|].
    destruct (String.eqb _ "python"); [right; right; now eexists|].
    destruct (String.eqb _ "command"); [right; left; now eexists | now left].
  - left. unfold execute_task_script. cbn [path_exists negb json_load].
    rewrite Hget, Hscripts. cbn [get_default].
    destruct scripts; [reflexivity | now rewrite Hfind].
Qed.

End Dispatch.

Lemma one_script_file_resolves (sc : script) (script_name : string) :
  s_name sc = Some script_name -> resolves (one_script_file sc) "t" script_name sc.
Proof.
  intros H. exists [("t", mkTask (Some "p") (Some [sc]))], (mkTask (Some "p") (Some [sc])), [sc].
  repeat split. cbn [find_script].
  apply name_matches_iff in H. now rewrite H.
Qed.

Lemma truthy_nonempty (c : string) : c <> "" -> negb (truthy c) = false.
Proof. destruct c; [congruence | reflexivity]. Qed.

(** ** Command scripts *)




(** ** Python scripts *)




(** ** Script types *)

Lemma lower_char_idempotent (c : ascii) : lower_char (lower_char c) = lower_char c.
Proof.
  unfold lower_char.
  destruct ((65 <=? N_of_ascii c) && (N_of_ascii c <=? 90))%N eqn:E; [|now rewrite E].
  apply andb_true_iff in E. destruct E as [E1 E2].
  apply N.leb_le in E1. apply N.leb_le in E2.
  rewrite N_ascii_embedding by lia.
  replace (N_of_ascii c + 32 <=? 90)%N with false by (symmetry; apply N.leb_gt; lia).
  now rewrite andb_false_r.
Qed.

Lemma lower_idempotent (s : string) : lower (lower s) = lower s.
Proof.
  induction s as [|c s IH]; simpl; [reflexivity|].
  now rewrite lower_char_idempotent, IH.
Qed.




(** C10 (as amended).  The stored type is lowercased before it is compared:
    for a script whose code is not empty, a type that lowercases to [python]
    is handed to the code runner and a type that lowercases to [command] is
    handed to the shell runner, whatever the letter case of the stored
    type. *)
Theorem C10_type_match_ignores_case
    (shell_process python_process : string -> process_outcome)
    (f : tasks_file) (task_name script_name : string) (sc : script)
    (t c : string) (args : option (list value)) :
  resolves f task_name script_name sc ->
  s_type sc = Some t -> s_code sc = Some c -> c <> "" ->
  (lower t = "python" ->
   execute_task_script shell_process python_process task_name script_name args f
   = (execute_python python_process (wrapped_source c (args_or_empty args)),
      [Call_execute_python (wrapped_source c (args_or_empty args))])) /\
  (lower t = "command" ->
   execute_task_script shell_process python_process task_name script_name args f
   = (execute_command shell_process (command_line c (args_or_empty args)),
      [Call_execute_command (command_line c (args_or_empty args))])).
Proof.
  intros Hres Ht Hc Hne.
  rewrite (execute_task_script_resolved _ _ _ _ _ sc args Hres).
  rewrite Ht, Hc. cbn [get_default]. cbv zeta.
  rewrite (truthy_nonempty c Hne).
  split; intros Hlower; now rewrite Hlower.
Qed.

Lemma C10_type_match_ignores_case_witness :
  let py := mkScript (Some "run") (Some "Python") (Some "print(1)") None in
  let sh := mkScript (Some "run") (Some "COMMAND") (Some "ls") None in
  resolves (one_script_file py) "t" "run" py /\
  resolves (one_script_file sh) "t" "run" sh /\
  snd (execute_task_script (always 0 "" "") (always 0 "" "") "t" "run" None
         (one_script_file py))
  = [Call_execute_python ("task_args = []" ++ nl ++ nl ++ "print(1)")] /\
  snd (execute_task_script (always 0 "" "") (always 0 "" "") "t" "run" None
         (one_script_file sh))
  = [Call_execute_command "ls"].
Proof.
  assert (Hpy : resolves
            (one_script_file (mkScript (Some "run") (Some "Python") (Some "print(1)") None))
            "t" "run" (mkScript (Some "run") (Some "Python") (Some "print(1)") None))
    by (apply one_script_file_resolves; reflexivity).
  assert (Hsh : resolves
            (one_script_file (mkScript (Some "run") (Some "COMMAND") (Some "ls") None))
            "t" "run" (mkScript (Some "run") (Some "COMMAND") (Some "ls") None))
    by (apply one_script_file_resolves; reflexivity).
  assert (N1 : "print(1)" <> "") by discriminate.
  assert (N2 : "ls" <> "") by discriminate.
  split; [exact Hpy|]. split; [exact Hsh|]. split.
  - exact (f_equal snd
      (proj1 (C10_type_match_ignores_case (always 0 "" "") (always 0 "" "") _ "t" "run" _
                "Python" "print(1)" None Hpy eq_refl eq_refl N1) eq_refl)).
  - exact (f_equal snd
      (proj2 (C10_type_match_ignores_case (always 0 "" "") (always 0 "" "") _ "t" "run" _
                "COMMAND" "ls" None Hsh eq_refl eq_refl N2) eq_refl)).
Defined.

(** C10 without the condition on the code does not hold.  A script of type
    [Python] or [COMMAND] whose code is empty or missing is not dispatched to
    any runner. *)
Lemma C10_empty_code_not_dispatched :
  let py := mkScript (Some "run") (Some "Python") (Some "") None in
  let sh := mkScript (Some "run") (Some "COMMAND") None None in
  lower "Python" = "python" /\ lower "COMMAND" = "command" /\
  execute_task_script (always 0 "" "") (always 0 "" "") "t" "run" None
    (one_script_file py)
  = ("Script 'run' contains no code to execute.", []) /\
  execute_task_script (always 0 "" "") (always 0 "" "") "t" "run" None
    (one_script_file sh)
  = ("Script 'run' contains no code to execute.", []).
Proof. cbv zeta. repeat split. Qed.

(** Comparing after [lower]: storing the lowercased type instead of the type
    changes neither the reply nor the runner call. *)
Lemma execute_task_script_type_lowered
    (shell_process python_process : string -> process_outcome)
    (f f' : tasks_file) (task_name script_name : string) (sc : script)
    (t : string) (args : option (list value)) :
  s_type sc = Some t ->
  resolves f task_name script_name sc ->
  resolves f' task_name script_name
    (mkScript (s_name sc) (Some (lower t)) (s_code sc) (s_description sc)) ->
  execute_task_script shell_process python_process task_name script_name args f
  = execute_task_script shell_process python_process task_name script_name args f'.
Proof.
  intros Ht Hres Hres'.
  rewrite (execute_task_script_resolved _ _ _ _ _ _ args Hres).
  rewrite (execute_task_script_resolved _ _ _ _ _ _ args Hres').
  rewrite Ht. cbn [s_type s_code get_default].
  now rewrite lower_idempotent.
Qed.

(** ** Scripts that share a name *)



Example two_scripts_one_name :
  let first := mkScript (Some "build") (Some "command") (Some "make") None in
  let second := mkScript (Some "build") (Some "python") (Some "print(2)") None in
  snd (execute_task_script (always 0 "" "") (always 0 "" "") "t" "build" None
         (Valid [("t", mkTask (Some "p") (Some [first; second]))]))
  = [Call_execute_command "make"].
Proof. reflexivity. Qed.

(** ** Reports of the runners *)






(** ** Sanity checks of the built-ins *)

Example str_int_samples :
  str_int 0 = "0" /\ str_int 12 = "12" /\ str_int (-7) = "-7".
Proof. repeat split; reflexivity. Qed.

Example lower_sample : lower "PyThon-3 X" = "python-3 x".
Proof. reflexivity. Qed.

Example strip_sample :
  strip (" " ++ nl ++ "a b " ++ nl) = "a b" /\ strip (" " ++ nl) = "".
Proof. split; reflexivity. Qed.

Example repr_sample :
  repr (VList [VInt 1; VStr "x"; VStr "it's"; VNone; VDict [("k", VBool true)]])
  = "[1, 'x', " ++ dquote ++ "it's" ++ dquote ++ ", None, {'k': True}]".
Proof. reflexivity. Qed.

Example list_nash_tasks_sample :
  list_nash_tasks
    (Valid [("greeting", saved_task "say hi" None);
            ("hello", saved_task "Say hi" (Some [sample_script]))])
  = "Available tasks:" ++ nl ++ nl
      ++ "- greeting (no scripts)" ++ nl ++ nl
      ++ "- hello (1 script)" ++ nl ++ "  Scripts:" ++ nl ++ "  - greet (python)"
      ++ nl ++ nl
      ++ "Use run_nash_task(task_name) to view complete task details.".
Proof. reflexivity. Qed.

(** * Further properties of the registry *)

(** ** Saving and deleting leave the other tasks alone *)

Section DictFrame.

Context {V : Type}.
Implicit Types (d : dict V) (k : string) (v : V).

Lemma dict_get_set_other k k' v d :
  k' <> k -> dict_get k' (dict_set k v d) = dict_get k' d.
Proof.
  intros Hne. induction d as [|[k0 v0] d IH]; simpl.
  - destruct (String.eqb k k') eqn:E; [|reflexivity].
    apply String.eqb_eq in E. congruence.
  - destruct (String.eqb k0 k) eqn:E; simpl.
    + apply String.eqb_eq in E. subst k0.
      destruct (String.eqb k k') eqn:E'; [|reflexivity].
      apply String.eqb_eq in E'. congruence.
    + now rewrite IH.
Qed.

Lemma dict_keys_set_order k v d :
  dict_keys (dict_set k v d)
  = if dict_mem k d then dict_keys d else (dict_keys d ++ [k])%list.
Proof.
  unfold dict_mem. induction d as [|[k0 v0] d IH]; simpl; [reflexivity|].
  destruct (String.eqb k0 k) eqn:E; simpl; [reflexivity|].
  rewrite IH. now destruct (dict_get k d).
Qed.

Lemma dict_get_del_other k k' d :
  k' <> k -> dict_get k' (dict_del k d) = dict_get k' d.
Proof.
  intros Hne. induction d as [|[k0 v0] d IH]; simpl; [reflexivity|].
  destruct (String.eqb k0 k) eqn:E; simpl.
  - apply String.eqb_eq in E. subst k0.
    destruct (String.eqb k k') eqn:E'; [|reflexivity].
    apply String.eqb_eq in E'. congruence.
  - now rewrite IH.
Qed.

Lemma dict_mem_keys k d : dict_mem k d = true <-> In k (dict_keys d).
Proof.
  unfold dict_mem. induction d as [|[k0 v0] d IH]; simpl.
  - split; [discriminate | tauto].
  - destruct (String.eqb k0 k) eqn:E.
    + apply String.eqb_eq in E. tauto.
    + apply String.eqb_neq in E. rewrite IH. intuition congruence.
Qed.

Lemma dict_keys_del k d :
  dict_wf d ->
  dict_keys (dict_del k d) = filter (fun x => negb (String.eqb x k)) (dict_keys d).
Proof.
  unfold dict_wf. induction d as [|[k0 v0] d IH]; simpl; intros H; [reflexivity|].
  inversion H as [|? ? Hnot Hd]; subst.
  destruct (String.eqb k0 k) eqn:E; simpl.
  - apply String.eqb_eq in E. subst k0. clear - Hnot.
    induction d as [|[k1 v1] d IH]; simpl in *; [reflexivity|].
    destruct (String.eqb k1 k) eqn:E; simpl.
    + apply String.eqb_eq in E. tauto.
    + f_equal. apply IH. tauto.
  - f_equal. now apply IH.
Qed.

Lemma dict_del_set_fresh k v d :
  dict_mem k d = false -> dict_del k (dict_set k v d) = d.
Proof.
  unfold dict_mem. induction d as [|[k0 v0] d IH]; simpl; intros H.
  - now rewrite String.eqb_refl.
  - destruct (String.eqb k0 k) eqn:E; [discriminate H|].
    simpl. rewrite E. now rewrite IH.
Qed.

End DictFrame.

(** [delete_nash_task] on a tasks file that parses. *)
Lemma delete_nash_task_valid (n : string) (tasks : store) :
  delete_nash_task n (Valid tasks)
  = if dict_mem n tasks
    then ("Task '" ++ n ++ "' deleted successfully.", Valid (dict_del n tasks))
    else ("Task '" ++ n ++ "' not found. Use list_nash_tasks() to see available tasks.",
          Valid tasks).
Proof.
  unfold delete_nash_task. cbn [path_exists negb json_load].
  now destruct (dict_mem n tasks).
Qed.

(** Saving under [n] touches no other task.  Every other name is looked up
    as before, and the order of the names is kept: a name already in the
    store stays where it is, a new name goes to the end. *)
Theorem save_nash_task_keeps_other_tasks (n p : string)
    (s : option (list script)) (tasks : store) :
  exists tasks',
    snd (save_nash_task n p s (Valid tasks)) = Valid tasks' /\
    (forall m, m <> n -> dict_get m tasks' = dict_get m tasks) /\
    dict_keys tasks'
    = if dict_mem n tasks then dict_keys tasks else (dict_keys tasks ++ [n])%list.
Proof.
  rewrite save_nash_task_file. eexists. split; [reflexivity|]. split.
  - intros m Hm. now apply dict_get_set_other.
  - apply dict_keys_set_order.
Qed.

(** Deleting [n] touches no other task.  Every other name is looked up as
    before and the remaining names keep their order. *)
Theorem delete_nash_task_keeps_other_tasks (n : string) (tasks : store) :
  dict_wf tasks ->
  exists tasks',
    snd (delete_nash_task n (Valid tasks)) = Valid tasks' /\
    (forall m, m <> n -> dict_get m tasks' = dict_get m tasks) /\
    dict_keys tasks' = filter (fun x => negb (String.eqb x n)) (dict_keys tasks).
Proof.
  intros Hwf. rewrite delete_nash_task_valid.
  destruct (dict_mem n tasks) eqn:Hmem; cbn [snd]; eexists; (split; [reflexivity|]).
  - split; [intros m Hm; now apply dict_get_del_other | now apply dict_keys_del].
  - split; [reflexivity|].
    assert (Hnot : ~ In n (dict_keys tasks)).
    { intros Hin. apply dict_mem_keys in Hin. congruence. }
    clear - Hnot. induction (dict_keys tasks) as [|x l IH]; simpl in *; [reflexivity|].
    destruct (String.eqb x n) eqn:E; simpl.
    + apply String.eqb_eq in E. tauto.
    + f_equal. apply IH. tauto.
Qed.

Lemma delete_nash_task_keeps_other_tasks_witness :
  let tasks := [("a", saved_task "first" None); ("b", saved_task "other" None);
                ("c", saved_task "third" None)] in
  dict_wf tasks /\
  exists tasks',
    snd (delete_nash_task "b" (Valid tasks)) = Valid tasks' /\
    (forall m, m <> "b" -> dict_get m tasks' = dict_get m tasks) /\
    dict_keys tasks' = ["a"; "c"].
Proof.
  assert (H : dict_wf [("a", saved_task "first" None); ("b", saved_task "other" None);
                       ("c", saved_task "third" None)]).
  { repeat constructor; simpl; intuition discriminate. }
  split; [exact H|].
  exact (delete_nash_task_keeps_other_tasks "b" _ H).
Defined.

(** [delete_nash_task] rewrites the tasks file only when it reports success.
    In every other case (no file, a file that does not parse, a name that is
    not in the store) the file is left exactly as it was; in particular a
    file that does not parse is reported through the catch-all handler and is
    not overwritten, while [save_nash_task] replaces it. *)
Theorem delete_nash_task_rewrites_only_on_success (n : string) (f : tasks_file) :
  (snd (delete_nash_task n f) = f \/
   fst (delete_nash_task n f) = "Task '" ++ n ++ "' deleted successfully.") /\
  (forall err tb p s,
      delete_nash_task n (Invalid err tb)
      = ("Error deleting task: " ++ err, Invalid err tb) /\
      snd (save_nash_task n p s (Invalid err tb)) <> Invalid err tb).
Proof.
  split.
  - destruct f as [| |tasks]; [now left | now left |].
    rewrite delete_nash_task_valid. destruct (dict_mem n tasks); [now right | now left].
  - intros err tb p s. split; [reflexivity | discriminate].
Qed.

(** Saving a task under a name that is not in the store and deleting it
    again gives back the store that [save_nash_task] started from: the store
    of the file when it parses, the empty store when the file is absent or
    does not parse.  In the second case the file now exists, and
    [list_nash_tasks] answers that there are no tasks. *)
Theorem save_then_delete_restores_store (n p : string)
    (s : option (list script)) (f : tasks_file) :
  let before := match f with Valid tasks => tasks | _ => [] end in
  dict_mem n before = false ->
  delete_nash_task n (snd (save_nash_task n p s f))
  = ("Task '" ++ n ++ "' deleted successfully.", Valid before) /\
  (before = [] ->
   list_nash_tasks (snd (delete_nash_task n (snd (save_nash_task n p s f))))
   = "No tasks available.").
Proof.
  assert (K : forall b : store, dict_mem n b = false ->
              delete_nash_task n (Valid (dict_set n (saved_task p s) b))
              = ("Task '" ++ n ++ "' deleted successfully.", Valid b)).
  { intros b Hb. rewrite delete_nash_task_valid.
    assert (Hin : dict_mem n (dict_set n (saved_task p s) b) = true).
    { unfold dict_mem. now rewrite dict_get_set_same. }
    now rewrite Hin, (dict_del_set_fresh n _ b Hb). }
  intros before Hmem. rewrite save_nash_task_file.
  destruct f as [| |tasks]; cbv iota; subst before; cbv iota in Hmem;
    rewrite (K _ Hmem); (split; [reflexivity|]); intros E;
    try rewrite E; reflexivity.
Qed.

Lemma save_then_delete_restores_store_witness :
  let tasks := [("a", saved_task "first" None)] in
  dict_mem "b" tasks = false /\
  delete_nash_task "b" (snd (save_nash_task "b" "second" (Some [sample_script])
                               (Valid tasks)))
  = ("Task 'b' deleted successfully.", Valid tasks).
Proof.
  split; [reflexivity|].
  exact (proj1 (save_then_delete_restores_store "b" "second" (Some [sample_script])
                  (Valid [("a", saved_task "first" None)]) eq_refl)).
Defined.

(** ** Reports of [list_nash_tasks] and [run_nash_task] *)

Lemma occurs_in_order_here_eq (x : string) (xs : list string) (r post : string) :
  r = x ++ post -> occurs_in_order xs post -> occurs_in_order (x :: xs) r.
Proof. intros ->. apply occurs_in_order_here. Qed.

(** Matches an expected text that is itself a chain of appended pieces. *)
Ltac here_chain :=
  eapply occurs_in_order_here_eq; [ rewrite ?append_assoc; reflexivity | ].

Ltac walk_chain :=
  repeat first
    [ exact I
    | apply occurs_in_order_last
    | apply occurs_in_order_here
    | here_chain
    | apply occurs_in_order_prepend ].

Lemma concat_empty_cons (x : string) (l : list string) :
  String.concat "" (x :: l) = x ++ String.concat "" l.
Proof. destruct l; cbn [String.concat]; [now rewrite append_empty_r | reflexivity]. Qed.

Lemma fold_left_append {A : Type} (step : string -> A -> string) :
  (forall r x, step r x = r ++ step "" x) ->
  forall (l : list A) (acc : string),
    fold_left step l acc = acc ++ String.concat "" (map (step "") l).
Proof.
  intros Hstep l. induction l as [|x l IH]; intros acc.
  - cbn. now rewrite append_empty_r.
  - cbn [fold_left map]. rewrite IH, Hstep, concat_empty_cons. apply append_assoc.
Qed.

Lemma occurs_in_order_concat {A : Type} (fields : A -> list string)
    (block : A -> string) (l : list A) :
  (forall x, In x l -> occurs_in_order (fields x) (block x)) ->
  occurs_in_order (flat_map fields l) (String.concat "" (map block l)).
Proof.
  induction l as [|x l IH]; intros H; [exact I|].
  cbn [flat_map map]. rewrite concat_empty_cons.
  apply occurs_in_order_app; [apply H; now left | apply IH].
  intros y Hy. apply H. now right.
Qed.

Lemma list_script_line_acc (result : string) (sc : script) :
  list_script_line result sc = result ++ list_script_line "" sc.
Proof. reflexivity. Qed.

Lemma list_task_entry_acc (result : string) (item : string * task) :
  list_task_entry result item = result ++ list_task_entry "" item.
Proof.
  destruct item as [task_name task_data]. unfold list_task_entry.
  destruct (0 <? List.length (get_default (t_scripts task_data) []))%nat.
  - rewrite !(fold_left_append list_script_line list_script_line_acc).
    change ("" ++ ?x) with x. now rewrite !append_assoc.
  - change ("" ++ ?x) with x. now rewrite !append_assoc.
Qed.

Lemma list_task_entry_fields (item : string * task) :
  occurs_in_order (listing_fields item) (list_task_entry "" item).
Proof.
  destruct item as [task_name [prompt scripts]].
  unfold list_task_entry, listing_fields. cbn [fst snd t_scripts].
  destruct (get_default scripts []) as [|sc l] eqn:E.
  - cbn [List.length Nat.ltb Nat.leb]. change ("" ++ ?x) with x.
    rewrite !append_assoc. walk_chain.
  - change (0 <? List.length (sc :: l))%nat with true. cbv iota.
    rewrite (fold_left_append list_script_line list_script_line_acc).
    change ("" ++ ?x) with x. rewrite !append_assoc.
    apply occurs_in_order_prepend. apply occurs_in_order_here.
    here_chain.
    do 2 apply occurs_in_order_prepend.
    apply occurs_in_order_append.
    apply occurs_in_order_concat. intros x _.
    unfold list_script_line. change ("" ++ ?y) with y. walk_chain.
Qed.

(** [list_nash_tasks] lists the whole store.  For every tasks file that
    parses, the report shows, task after task in the order of the store, the
    task's name followed by the note [(no scripts)] or by the number of its
    scripts and each script's name and type ([unnamed] and [unknown] when the
    key is missing). *)
Theorem list_nash_tasks_lists_every_task (tasks : store) :
  occurs_in_order (flat_map listing_fields tasks) (list_nash_tasks (Valid tasks)).
Proof.
  unfold list_nash_tasks. cbn [path_exists negb json_load].
  destruct tasks as [|item tasks]; [exact I|].
  rewrite (fold_left_append list_task_entry list_task_entry_acc).
  rewrite !append_assoc.
  do 3 apply occurs_in_order_prepend.
  apply occurs_in_order_append.
  apply occurs_in_order_concat. intros x _. apply list_task_entry_fields.
Qed.

Lemma run_script_entry_acc (task_name result : string) (item : Z * script) :
  run_script_entry task_name result item
  = result ++ run_script_entry task_name "" item.
Proof.
  destruct item as [i sc]. unfold run_script_entry.
  change ("" ++ ?x) with x. now rewrite !append_assoc.
Qed.

Lemma run_script_entry_fields (task_name : string) (item : Z * script) :
  occurs_in_order (run_fields task_name item) (run_script_entry task_name "" item).
Proof.
  destruct item as [i sc]. unfold run_script_entry, run_fields.
  change ("" ++ ?x) with x. rewrite !append_assoc.
  apply occurs_in_order_prepend. here_chain.
  apply occurs_in_order_prepend. apply occurs_in_order_here.
  do 3 apply occurs_in_order_prepend. apply occurs_in_order_here.
  apply occurs_in_order_prepend. here_chain. exact I.
Qed.

(** [run_nash_task] after [save_nash_task].  Whatever the tasks file held,
    the report for the saved name shows the prompt and then, for each saved
    script in list order, its number (from 1) with its name, its type, its
    description and the line with the [execute_task_script] call that runs
    it; a missing key is shown by its default ([Script i], [unknown],
    [No description provided]). *)
Theorem run_nash_task_after_save (n p : string) (s : list script) (f : tasks_file) :
  occurs_in_order (p :: flat_map (run_fields n) (enumerate 1 s))
    (run_nash_task n (snd (save_nash_task n p (Some s) f))).
Proof.
  rewrite save_nash_task_file.
  unfold run_nash_task. cbn [path_exists negb json_load].
  rewrite dict_get_set_same.
  destruct s as [|sc s].
  - cbn [saved_task truthy_list t_prompt t_scripts get_default flat_map enumerate].
    rewrite !append_assoc. walk_report.
  - cbn [saved_task truthy_list t_prompt t_scripts get_default].
    rewrite (fold_left_append (run_script_entry n) (run_script_entry_acc n)).
    rewrite !append_assoc.
    do 6 apply occurs_in_order_prepend.
    apply occurs_in_order_here.
    do 4 apply occurs_in_order_prepend.
    apply occurs_in_order_concat. intros x _. apply run_script_entry_fields.
Qed.

(** ** What the reports leave out *)

Lemma dict_get_map_values {V W : Type} (g : V -> W) (k : string) (d : dict V) :
  dict_get k (map (fun kv => (fst kv, g (snd kv))) d)
  = option_map g (dict_get k d).
Proof.
  induction d as [|[k0 v0] d IH]; simpl; [reflexivity|].
  now destruct (String.eqb k0 k).
Qed.

Lemma fold_left_run_without_code (task_name : string) (l : list script) :
  forall (start : Z) (acc : string),
    fold_left (run_script_entry task_name) (enumerate start (map without_code l)) acc
    = fold_left (run_script_entry task_name) (enumerate start l) acc.
Proof.
  induction l as [|sc l IH]; intros start acc; [reflexivity|].
  cbn [map enumerate fold_left]. now rewrite IH.
Qed.

Lemma fold_left_list_without_code (l : list script) :
  forall acc : string,
    fold_left list_script_line (map without_code l) acc
    = fold_left list_script_line l acc.
Proof.
  induction l as [|sc l IH]; intros acc; [reflexivity|].
  cbn [map fold_left]. now rewrite IH.
Qed.

Lemma list_task_entry_without_code (result : string) (item : string * task) :
  list_task_entry result (fst item, task_without_code (snd item))
  = list_task_entry result item.
Proof.
  destruct item as [k [p [l|]]]; [|reflexivity].
  unfold list_task_entry, task_without_code. cbn [fst snd t_scripts t_prompt get_default].
  rewrite length_map, fold_left_list_without_code. reflexivity.
Qed.

(** Neither [run_nash_task] nor [list_nash_tasks] shows script code: their
    reports are the same when every script of every task has lost its [code]
    key.  (The code is shown by [view_task_details] only.) *)
Theorem run_and_list_do_not_show_code (n : string) (tasks : store) :
  let stripped := map (fun kv => (fst kv, task_without_code (snd kv))) tasks in
  run_nash_task n (Valid stripped) = run_nash_task n (Valid tasks) /\
  list_nash_tasks (Valid stripped) = list_nash_tasks (Valid tasks).
Proof.
  intros stripped. subst stripped. split.
  - unfold run_nash_task. cbn [path_exists negb json_load].
    rewrite dict_get_map_values.
    destruct (dict_get n tasks) as [[p [l|]]|]; cbn [option_map]; try reflexivity.
    unfold task_without_code. cbn [t_prompt t_scripts get_default].
    destruct l as [|sc l]; [reflexivity|].
    cbn [map]. change (without_code sc :: map without_code l)
      with (map without_code (sc :: l)).
    now rewrite fold_left_run_without_code.
  - unfold list_nash_tasks. cbn [path_exists negb json_load].
    destruct tasks as [|item tasks]; [reflexivity|].
    cbn [map]. f_equal.
    change ((fst item, task_without_code (snd item))
              :: map (fun kv => (fst kv, task_without_code (snd kv))) tasks)
      with (map (fun kv => (fst kv, task_without_code (snd kv))) (item :: tasks)).
    generalize ("Available tasks:" ++ nl ++ nl). generalize (item :: tasks).
    intros l. induction l as [|x l IH]; intros acc; [reflexivity|].
    cbn [map fold_left]. now rewrite list_task_entry_without_code, IH.
Qed.

(** ** Refusals of [execute_task_script] *)

Lemma find_script_none (script_name : string) (scripts : list script) :
  Forall (fun x => s_name x <> Some script_name) scripts ->
  find_script script_name scripts = None.
Proof.
  induction 1 as [|x l Hx _ IH]; cbn [find_script]; [reflexivity|].
  destruct (name_matches script_name x) eqn:E; [|exact IH].
  apply name_matches_iff in E. contradiction.
Qed.

(** A script name that no script of the task has: no runner is called and
    the reply names the script and the task and lists the names of all the
    scripts of the task, in list order, separated by a comma and a space
    ([unnamed] for a script without a name). *)
Theorem execute_task_script_unknown_script
    (shell_process python_process : string -> process_outcome)
    (task_name script_name : string) (args : option (list value))
    (tasks : store) (task_data : task) (scripts : list script) :
  dict_get task_name tasks = Some task_data ->
  t_scripts task_data = Some scripts ->
  scripts <> [] ->
  Forall (fun x => s_name x <> Some script_name) scripts ->
  execute_task_script shell_process python_process task_name script_name args
    (Valid tasks)
  = ("Script '" ++ script_name ++ "' not found in task '" ++ task_name
       ++ "'. Available scripts: "
       ++ join ", " (map (fun s => get_default (s_name s) "unnamed") scripts),
     []).
Proof.
  intros Hget Hscripts Hne Hnone.
  unfold execute_task_script. cbn [path_exists negb json_load].
  rewrite Hget, Hscripts. cbn [get_default].
  destruct scripts as [|sc l]; [congruence|].
  now rewrite (find_script_none script_name (sc :: l) Hnone).
Qed.

Lemma execute_task_script_unknown_script_witness :
  let scripts := [mkScript (Some "build") (Some "command") (Some "make") None;
                  mkScript None (Some "python") (Some "print(1)") None] in
  let tasks := [("t", mkTask (Some "p") (Some scripts))] in
  scripts <> [] /\ Forall (fun x => s_name x <> Some "Build") scripts /\
  execute_task_script (always 0 "" "") (always 0 "" "") "t" "Build" None (Valid tasks)
  = ("Script 'Build' not found in task 't'. Available scripts: build, unnamed", []).
Proof.
  assert (Hne : [mkScript (Some "build") (Some "command") (Some "make") None;
                 mkScript None (Some "python") (Some "print(1)") None] <> [])
    by discriminate.
  assert (Hnone : Forall (fun x => s_name x <> Some "Build")
                    [mkScript (Some "build") (Some "command") (Some "make") None;
                     mkScript None (Some "python") (Some "print(1)") None])
    by (repeat constructor; discriminate).
  split; [exact Hne|]. split; [exact Hnone|].
  exact (execute_task_script_unknown_script (always 0 "" "") (always 0 "" "")
           "t" "Build" None
           [("t", mkTask (Some "p")
                    (Some [mkScript (Some "build") (Some "command") (Some "make") None;
                           mkScript None (Some "python") (Some "print(1)") None]))]
           (mkTask (Some "p")
              (Some [mkScript (Some "build") (Some "command") (Some "make") None;
                     mkScript None (Some "python") (Some "print(1)") None]))
           _ eq_refl eq_refl Hne Hnone).
Defined.

(** A task saved without scripts ([scripts] omitted or an empty list) is a
    prompt-only task: whatever script name and arguments are given,
    [execute_task_script] calls no runner and answers that the task does not
    contain any scripts, and [list_nash_tasks] marks the task with
    [(no scripts)]. *)
Theorem execute_task_script_prompt_only_task
    (shell_process python_process : string -> process_outcome)
    (n p script_name : string) (s : option (list script))
    (args : option (list value)) (f : tasks_file) :
  truthy_list s = false ->
  let f' := snd (save_nash_task n p s f) in
  execute_task_script shell_process python_process n script_name args f'
  = ("Task '" ++ n ++ "' does not contain any scripts.", []) /\
  occurs ("- " ++ n ++ " (no scripts)") (list_nash_tasks f').
Proof.
  intros Hs f'. subst f'. rewrite save_nash_task_file.
  match goal with
  | |- context [dict_set n (saved_task p s) ?b] => set (before := b)
  end.
  clearbody before. split.
  - unfold execute_task_script. cbn [path_exists negb json_load].
    rewrite dict_get_set_same. unfold saved_task. rewrite Hs. reflexivity.
  - assert (Hin : In (n, saved_task p s) (dict_set n (saved_task p s) before)).
    { clear. induction before as [|[k v] d IH]; simpl; [now left|].
      destruct (String.eqb k n) eqn:E; simpl; [|now right].
      left. apply String.eqb_eq in E. now subst. }
    destruct (in_split _ _ Hin) as (l1 & l2 & Hsplit). rewrite Hsplit.
    unfold list_nash_tasks. cbn [path_exists negb json_load].
    destruct (l1 ++ (n, saved_task p s) :: l2)%list as [|x l] eqn:E;
      [now destruct l1|].
    rewrite <- E.
    rewrite (fold_left_append list_task_entry list_task_entry_acc).
    rewrite map_app. cbn [map].
    assert (Hentry : list_task_entry "" (n, saved_task p s)
                     = "- " ++ n ++ " (no scripts)" ++ nl ++ nl).
    { unfold list_task_entry, saved_task. rewrite Hs.
      cbn [t_scripts get_default List.length Nat.ltb Nat.leb].
      change ("" ++ ?y) with y. now rewrite !append_assoc. }
    rewrite Hentry.
    assert (Hcat : forall a (x : string) b,
               String.concat "" (a ++ x :: b)
               = String.concat "" a ++ x ++ String.concat "" b).
    { intros a y b. induction a as [|z a IH].
      - cbn [app]. now rewrite concat_empty_cons.
      - cbn [app]. now rewrite !concat_empty_cons, IH, append_assoc. }
    rewrite Hcat.
    apply (occurs_in_order_occurs ["- " ++ n ++ " (no scripts)"]); [|now left].
    rewrite !append_assoc.
    do 4 apply occurs_in_order_prepend.
    here_chain. exact I.
Qed.

Lemma execute_task_script_prompt_only_task_witness :
  truthy_list (Some (@nil script)) = false /\
  execute_task_script (always 0 "" "") (always 0 "" "") "greeting" "anything" None
    (snd (save_nash_task "greeting" "say hi" (Some []) Missing))
  = ("Task 'greeting' does not contain any scripts.", []).
Proof.
  split; [reflexivity|].
  exact (proj1 (execute_task_script_prompt_only_task (always 0 "" "") (always 0 "" "")
                  "greeting" "say hi" "anything" (Some []) None Missing eq_refl)).
Defined.

(** [execute_task_script] starts at most one child process for each call, and
    when it starts one, its reply is the report of that runner, unchanged. *)
Theorem execute_task_script_at_most_one_call
    (shell_process python_process : string -> process_outcome)
    (task_name script_name : string) (args : option (list value)) (f : tasks_file) :
  match snd (execute_task_script shell_process python_process
               task_name script_name args f) with
  | [] => True
  | [Call_execute_command cmd] =>
      fst (execute_task_script shell_process python_process
             task_name script_name args f)
      = execute_command shell_process cmd
  | [Call_execute_python code] =>
      fst (execute_task_script shell_process python_process
             task_name script_name args f)
      = execute_python python_process code
  | _ :: _ :: _ => False
  end.
Proof.
  destruct (execute_task_script_calls shell_process python_process f
              task_name script_name args) as [H|[[cmd H]|[code H]]];
    now rewrite H.
Qed.

(** ** No reply is blank *)

Lemma append_nonempty_l (a b : string) : a <> "" -> a ++ b <> "".
Proof. destruct a; [congruence | discriminate]. Qed.

Lemma fold_left_append_nonempty {A : Type} (step : string -> A -> string) :
  (forall r x, step r x = r ++ step "" x) ->
  forall (l : list A) (acc : string), acc <> "" -> fold_left step l acc <> "".
Proof.
  intros Hstep l acc Hacc. rewrite (fold_left_append step Hstep).
  now apply append_nonempty_l.
Qed.

Lemma strip_nonempty (s : string) : truthy (strip s) = true -> s <> "".
Proof. intros H ->. discriminate H. Qed.

Lemma execute_command_nonempty (shell_process : string -> process_outcome)
    (cmd : string) : execute_command shell_process cmd <> "".
Proof.
  unfold execute_command. destruct (shell_process cmd) as [rc out err|msg tb].
  - destruct (rc =? 0)%Z; [|discriminate].
    destruct (truthy (strip out)) eqn:E; [now apply strip_nonempty | discriminate].
  - discriminate.
Qed.

Lemma execute_python_nonempty (python_process : string -> process_outcome)
    (code : string) : execute_python python_process code <> "".
Proof.
  unfold execute_python. destruct (python_process code) as [rc out err|msg tb].
  - destruct (rc =? 0)%Z; [|discriminate].
    destruct out; [discriminate | discriminate].
  - discriminate.
Qed.

(** Every tool of the registry and both runners always answer with a text
    that is not empty, whatever the tasks file holds and whatever the child
    process does: a caller never gets a blank reply. *)
Theorem replies_are_never_blank
    (shell_process python_process : string -> process_outcome)
    (n p script_name : string) (s : option (list script))
    (args : option (list value)) (f : tasks_file) :
  fst (save_nash_task n p s f) <> "" /\
  list_nash_tasks f <> "" /\
  run_nash_task n f <> "" /\
  view_task_details n f <> "" /\
  fst (delete_nash_task n f) <> "" /\
  fst (execute_task_script shell_process python_process n script_name args f) <> "" /\
  execute_command shell_process n <> "" /\
  execute_python python_process n <> "".
Proof.
  repeat split.
  - destruct f; discriminate.
  - destruct f as [| |[|item tasks]]; try discriminate.
    unfold list_nash_tasks. cbn [path_exists negb json_load].
    apply append_nonempty_l.
    apply (fold_left_append_nonempty list_task_entry list_task_entry_acc).
    discriminate.
  - destruct f as [| |tasks]; try discriminate.
    unfold run_nash_task. cbn [path_exists negb json_load].
    destruct (dict_get n tasks) as [td|]; [|discriminate].
    destruct (get_default (t_scripts td) []); [discriminate|].
    apply (fold_left_append_nonempty (run_script_entry n) (run_script_entry_acc n)).
    discriminate.
  - destruct f as [| |tasks]; try discriminate.
    unfold view_task_details. cbn [path_exists negb json_load].
    destruct (dict_get n tasks) as [td|]; [|discriminate].
    destruct (get_default (t_scripts td) []); [discriminate|].
    apply (fold_left_append_nonempty (view_script_entry n) (view_script_entry_acc n)).
    discriminate.
  - destruct f as [| |tasks]; try discriminate.
    rewrite delete_nash_task_valid. destruct (dict_mem n tasks); discriminate.
  - destruct (execute_task_script_calls shell_process python_process f
                n script_name args) as [H|[[cmd H]|[code H]]].
    + revert H. unfold execute_task_script.
      destruct f as [| |tasks]; try discriminate.
      cbn [path_exists negb json_load].
      destruct (dict_get n tasks) as [td|]; [|discriminate].
      destruct (get_default (t_scripts td) []) as [|sc l]; [discriminate|].
      destruct (find_script script_name (sc :: l)) as [target|]; [|discriminate].
      cbv zeta.
      destruct (negb (truthy (get_default (s_code target) ""))); [discriminate|].
      destruct (String.eqb _ "python"); [discriminate|].
      destruct (String.eqb _ "command"); discriminate.
    + rewrite H. apply execute_command_nonempty.
    + rewrite H. apply execute_python_nonempty.
  - apply execute_command_nonempty.
  - apply execute_python_nonempty.
Qed.

(** * The command text in the log *)










(** ** A text without white space inside parts joined by spaces *)









(** * The environment of the Python child process *)

Lemma dict_get_add_secret (k : string) (env_vars : dict string) (s : secret) :
  dict_get k (add_secret env_vars s)
  = match secret_key s, secret_value s with
    | Some k', Some v => if String.eqb k' k then Some v else dict_get k env_vars
    | _, _ => dict_get k env_vars
    end.
Proof.
  unfold add_secret. destruct (secret_key s) as [k'|]; [|reflexivity].
  destruct (secret_value s) as [v|]; [|reflexivity].
  destruct (String.eqb k' k) eqn:E.
  - apply String.eqb_eq in E. subst. apply dict_get_set_same.
  - apply String.eqb_neq in E. apply dict_get_set_other. congruence.
Qed.

Lemma last_secret_from (k : string) (entries : list secret) :
  forall found : option string,
    fold_left
      (fun found s =>
         match secret_key s, secret_value s with
         | Some k', Some v => if String.eqb k' k then Some v else found
         | _, _ => found
         end)
      entries found
    = match last_secret k entries with Some v => Some v | None => found end.
Proof.
  unfold last_secret. induction entries as [|s entries IH]; intros found; [reflexivity|].
  cbn [fold_left]. rewrite IH. symmetry. rewrite IH.
  destruct (fold_left _ entries None); [reflexivity|].
  destruct (secret_key s) as [k'|]; [|reflexivity].
  destruct (secret_value s) as [v|]; [|reflexivity].
  now destruct (String.eqb k' k).
Qed.

(** What the child process of [execute_python] finds under a variable name.
    With a secrets file that parses, it is the value of the last entry of
    the file that has both [key] and [value] and whose key is that name, and
    when there is no such entry, the value inherited from [os.environ] (or
    nothing); entries that lack [key] or [value] are skipped.  With no secrets
    file, or one that does not parse, the environment is the inherited
    one. *)
Theorem python_env_lookup (environ : dict string) (f : secrets_file) (k : string) :
  dict_get k (python_env environ f)
  = match f with
    | Secrets entries =>
        match last_secret k entries with
        | Some v => Some v
        | None => dict_get k environ
        end
    | _ => dict_get k environ
    end.
Proof.
  destruct f as [|err|entries]; [reflexivity | reflexivity |].
  cbn [python_env]. rewrite <- last_secret_from.
  revert environ. induction entries as [|s entries IH]; intros environ; [reflexivity|].
  cbn [fold_left]. rewrite IH, dict_get_add_secret.
  destruct (secret_key s) as [k'|]; [|reflexivity].
  now destruct (secret_value s).
Qed.

Lemma python_env_wf (environ : dict string) (f : secrets_file) :
  dict_wf environ -> dict_wf (python_env environ f).
Proof.
  destruct f as [|err|entries]; [trivial | trivial |]. cbn [python_env].
  revert environ. induction entries as [|s entries IH]; intros environ H; [exact H|].
  cbn [fold_left]. apply IH. unfold add_secret.
  destruct (secret_key s); [|exact H]. destruct (secret_value s); [|exact H].
  now apply dict_wf_set.
Qed.

(** * The argument text in the log *)




(** * Saved tasks are listed *)

Lemma dict_set_in {V : Type} (k : string) (v : V) (d : dict V) :
  In (k, v) (dict_set k v d).
Proof.
  induction d as [|[k0 v0] d IH]; simpl; [now left|].
  destruct (String.eqb k0 k) eqn:E; simpl; [|now right].
  left. apply String.eqb_eq in E. now subst.
Qed.

(** Whatever the tasks file held before, after [save_nash_task n p s] the
    report of [list_nash_tasks] shows the name [n] followed by what was saved
    with it: the note [(no scripts)], or the number of scripts and the name
    and type of each script of [s] in list order. *)
Theorem saved_task_is_listed (n p : string) (s : option (list script))
    (f : tasks_file) :
  occurs_in_order (listing_fields (n, saved_task p s))
    (list_nash_tasks (snd (save_nash_task n p s f))).
Proof.
  rewrite save_nash_task_file.
  match goal with
  | |- context [dict_set n (saved_task p s) ?b] => set (before := b)
  end.
  clearbody before.
  destruct (in_split _ _ (dict_set_in n (saved_task p s) before))
    as (l1 & l2 & Hsplit).
  rewrite Hsplit.
  unfold list_nash_tasks. cbn [path_exists negb json_load].
  destruct (l1 ++ (n, saved_task p s) :: l2)%list as [|x l] eqn:E; [now destruct l1|].
  rewrite <- E.
  rewrite (fold_left_append list_task_entry list_task_entry_acc).
  rewrite map_app. cbn [map].
  apply occurs_in_order_append. apply occurs_in_order_prepend.
  generalize (map (list_task_entry "") l2). intros rest.
  induction l1 as [|y l1 IH] in |- *.
  - cbn [map app]. rewrite concat_empty_cons.
    apply occurs_in_order_append. apply list_task_entry_fields.
  - cbn [map app]. rewrite concat_empty_cons.
    apply occurs_in_order_prepend. exact IH.
Qed.
